(** * digital-garden: the content pipeline configuration and the site metadata

    A shallow embedding of the two pieces of logic of the repository:

    - [contentlayer.config.ts]: the [makeSource] configuration, i.e. the
      ordered plugin lists, the two line visitors handed to
      rehype-pretty-code and the [onSuccess] hook;
    - [lib/metadata.ts]: the exported [BASE_URL] constant.

    JavaScript values are modelled as far as the code inspects them:
    [undefined], [null], booleans, numbers, strings and arrays of strings,
    with the truthiness test that [&&] and [||] apply.  A [TypeError]
    raised by the JavaScript runtime is an explicit [Throw] result. *)

From stdpp Require Import base option list strings gmap pretty.

Set Warnings "-register-all".

Local Open Scope string_scope.
Local Open Scope Z_scope.

(** ** Results of code that may throw *)

Inductive Result (A : Type) : Type :=
  | Ok (a : A)
  | Throw (msg : string).
Arguments Ok {A} a.
Arguments Throw {A} msg.

#[export] Instance Result_ret : MRet Result := fun _ a => Ok a.
#[export] Instance Result_bind : MBind Result := fun _ _ f r =>
  match r with
  | Ok a => f a
  | Throw msg => Throw msg
  end.

Definition isOk {A} (r : Result A) : bool :=
  match r with Ok _ => true | Throw _ => false end.

(** ** JavaScript values *)

Module Js.

(** The values a hast property or an environment lookup can hold. *)
Inductive Value : Type :=
  | Undefined
  | Null
  | Bool (b : bool)
  | Num (z : Z)
  | Str (s : string)
  | Arr (l : list string).

(** ToBoolean: what [if], [&&] and [||] test.  An array is an object and
    so always truthy, even when it is empty. *)
Definition truthy (v : Value) : bool :=
  match v with
  | Undefined | Null => false
  | Bool b => b
  | Num z => negb (z =? 0)
  | Str s => negb (String.eqb s "")
  | Arr _ => true
  end.

(** [a || b]: the first operand when it is truthy, else the second. *)
Definition or (a b : Value) : Value := if truthy a then a else b.

(** The [length] property; [undefined] on values that have none. *)
Definition length (v : Value) : Value :=
  match v with
  | Str s => Num (Z.of_nat (String.length s))
  | Arr l => Num (Z.of_nat (List.length l))
  | _ => Undefined
  end.

(** [v > 0]; a comparison with [undefined] (NaN) is false. *)
Definition gt0 (v : Value) : bool :=
  match v with
  | Num z => 0 <? z
  | _ => false
  end.

(** ToString, as a template literal applies it to an interpolated
    value. *)
Definition toString (v : Value) : string :=
  match v with
  | Undefined => "undefined"
  | Null => "null"
  | Bool true => "true"
  | Bool false => "false"
  | Num z => pretty z
  | Str s => s
  | Arr l => String.concat "," l
  end.

(** Reading a key of an object: a missing key reads as [undefined]. *)
Definition get (o : gmap string Value) (k : string) : Value :=
  default Undefined (o !! k).

End Js.

(** ** The syntax tree (hast) *)

Module Hast.

(** A node of the HTML syntax tree: a text node or an element with its
    tag name, its [properties] object and its children. *)
Inductive Node : Type :=
  | Text (value : string)
  | Element (tagName : string)
            (properties : gmap string Js.Value)
            (children : list Node).

Definition children (n : Node) : list Node :=
  match n with
  | Text _ => []
  | Element _ _ c => c
  end.

(** [node.properties.className], [undefined] when absent. *)
Definition className (n : Node) : Js.Value :=
  match n with
  | Text _ => Js.Undefined
  | Element _ p _ => Js.get p "className"
  end.

(** The class list as a list of names; empty unless [className] is an
    array. *)
Definition classList (n : Node) : list string :=
  match className n with
  | Js.Arr l => l
  | _ => []
  end.

Definition isElement (n : Node) : bool :=
  match n with Element _ _ _ => true | Text _ => false end.

End Hast.

Import Hast.

(** ** contentlayer.config.ts *)

Definition HEADING_LINK_ANCHOR : string := "anchor-heading-link".

(** [onVisitLine(node)]: an element without children gets one text child
    holding a space, and [className] is overwritten with a fresh array
    [["line"]].  A text node has neither [children] nor [properties], so
    reading [node.children.length] throws. *)
Definition onVisitLine (node : Node) : Result Node :=
  match node with
  | Text _ => Throw "TypeError: Cannot read properties of undefined (reading 'length')"
  | Element tag props kids =>
      let kids' :=
        if (List.length kids =? 0)%nat then [Text " "] else kids in
      Ok (Element tag (<["className" := Js.Arr ["line"]]> props) kids')
  end.

(** The test of [onVisitHighlightedLine]:
    [nodeClass && nodeClass.length > 0]. *)
Definition hasClasses (nodeClass : Js.Value) : bool :=
  Js.truthy nodeClass && Js.gt0 (Js.length nodeClass).

(** [onVisitHighlightedLine(node)]: when the test holds, [push] appends
    "line--highlighted" to the array in place; otherwise [className] is
    set to a new one-element array.  A non-empty string passes the test
    but has no [push], which throws. *)
Definition onVisitHighlightedLine (node : Node) : Result Node :=
  match node with
  | Text _ => Throw "TypeError: Cannot read properties of undefined (reading 'className')"
  | Element tag props kids =>
      let nodeClass := Js.get props "className" in
      if hasClasses nodeClass then
        match nodeClass with
        | Js.Arr l =>
            Ok (Element tag
                  (<["className" := Js.Arr (l ++ ["line--highlighted"])%list]> props)
                  kids)
        | _ => Throw "TypeError: node.properties.className.push is not a function"
        end
      else
        Ok (Element tag (<["className" := Js.Arr ["line--highlighted"]]> props) kids)
  end.

(** Which branch of [onVisitHighlightedLine] a node takes. *)
Inductive Branch : Type := PushBranch | FallbackBranch.

Definition branchOf (node : Node) : Branch :=
  if hasClasses (className node) then PushBranch else FallbackBranch.

(** The text a node renders to: the values of its text descendants, in
    order. *)
Fixpoint textContent (n : Node) : string :=
  match n with
  | Text v => v
  | Element _ _ kids => String.concat "" (map textContent kids)
  end.

(** *** The plugin lists *)

Inductive Behavior : Type := Prepend | Append | Wrap | Before | After.

Record AutolinkOptions : Type := {
  behavior : Behavior;
  properties : gmap string Js.Value
}.

Record PrettyCodeOptions : Type := {
  theme : string;
  visitLine : Node → Result Node;
  visitHighlightedLine : Node → Result Node
}.

Inductive Plugin : Type :=
  | remarkGfm
  | remarkMath
  | rehypeKatex
  | rehypeSlug
  | rehypeAutolinkHeadings (options : AutolinkOptions)
  | rehypePrettyCode (options : PrettyCodeOptions).

Definition autolinkOptions : AutolinkOptions :=
  {| behavior := Wrap;
     properties := {["className" := Js.Arr [HEADING_LINK_ANCHOR]]} |}.

Definition prettyCodeOptions : PrettyCodeOptions :=
  {| theme := "github-dark";
     visitLine := onVisitLine;
     visitHighlightedLine := onVisitHighlightedLine |}.

Record MdxOptions : Type := {
  esbuildOptions : gmap string Js.Value → gmap string Js.Value;
  remarkPlugins : list Plugin;
  rehypePlugins : list Plugin
}.

Definition mdx : MdxOptions :=
  {| esbuildOptions := fun options => <["target" := Js.Str "esnext"]> options;
     remarkPlugins := [remarkGfm; remarkMath];
     rehypePlugins :=
       [rehypeKatex; rehypeSlug;
        rehypeAutolinkHeadings autolinkOptions;
        rehypePrettyCode prettyCodeOptions] |}.

(** The document types handed to [makeSource]; their definitions live in
    [lib/content-definitions] and are only named here. *)
Inductive DocumentType : Type := Post | Page.

Definition contentDirPath : string := "./content".
Definition documentTypes : list DocumentType := [Post; Page].

(** The steps of the transform chain in the order the configuration lists
    them: the remark plugins work on the markdown tree, the rehype plugins
    on the HTML tree made from it. *)
Definition pluginChain (cfg : MdxOptions) : list Plugin :=
  remarkPlugins cfg ++ rehypePlugins cfg.

(** *** Running the visitors over a code block *)

(** One line of a code block as rehype-pretty-code visits it: the line
    visitor on every line, then the highlighted-line visitor on the lines
    the fence's meta string marks. *)
Definition visitCodeLine (o : PrettyCodeOptions) (highlighted : bool)
    (line : Node) : Result Node :=
  line' ← visitLine o line;
  if highlighted then visitHighlightedLine o line' else Ok line'.

Fixpoint visitCodeBlock (o : PrettyCodeOptions) (lines : list (bool * Node))
    : Result (list Node) :=
  match lines with
  | [] => Ok []
  | (highlighted, line) :: rest =>
      line' ← visitCodeLine o highlighted line;
      rest' ← visitCodeBlock o rest;
      Ok (line' :: rest')
  end.

(** *** The transform chain *)

Section TransformChain.

(** The syntax tree of a document body and what each plugin does to it
    belong to the markdown toolchain; a step may throw. *)
Variable Tree : Type.
Variable apply : Plugin → Tree → Result Tree.

(** Modelled from the spec: the runner of the transform chain, which is
    part of the host toolchain and not of the configuration.  The steps
    are applied in the order of the list, each to the tree the previous
    one returned, and a step that throws ends the run. *)
Fixpoint runPlugins (steps : list Plugin) (tree : Tree) : Result Tree :=
  match steps with
  | [] => Ok tree
  | step :: rest => tree' ← apply step tree; runPlugins rest tree'
  end.

Definition transformBody (tree : Tree) : Result Tree :=
  runPlugins (pluginChain mdx) tree.

End TransformChain.

(** *** The build and its completion hook *)

(** What a build does that can be observed from outside, oldest first. *)
Inductive Event : Type :=
  | Processed (path : string)
  | HookInvoked
  | ConsoleLog (args : list Js.Value).

(** Effectful code: it reads and extends the trace of events, and may
    throw. *)
Definition Eff (A : Type) : Type := list Event → Result (A * list Event).

Definition ret {A} (a : A) : Eff A := fun w => Ok (a, w).

Definition bind {A B} (m : Eff A) (k : A → Eff B) : Eff B := fun w =>
  match m w with
  | Ok (a, w') => k a w'
  | Throw msg => Throw msg
  end.

Definition emit (e : Event) : Eff unit := fun w => Ok (tt, (w ++ [e])%list).

Definition lift {A} (r : Result A) : Eff A := fun w =>
  match r with
  | Ok a => Ok (a, w)
  | Throw msg => Throw msg
  end.

Notation "'do' x <- m ; k" := (bind m (fun x => k))
  (at level 10, x name, m at level 100, k at level 200, only parsing).

Record GeneratedData (Doc : Type) : Type := { allDocuments : list Doc }.
Arguments allDocuments {Doc} _.

(** [onSuccess(data)]: awaits the generated data and logs the number of
    documents. *)
Definition onSuccess {Doc} (data : Eff (GeneratedData Doc)) : Eff unit :=
  do generated <- data;
  emit (ConsoleLog [Js.Str "allDocuments";
                    Js.Num (Z.of_nat (length (allDocuments generated)))]).

Section Build.

(** A content file, and the work of the host on one file: reading it,
    checking its frontmatter and running the transform chain. *)
Variable File Doc : Type.
Variable filePath : File → string.
Variable processFile : File → Result Doc.

Fixpoint processAll (files : list File) : Eff (list Doc) :=
  match files with
  | [] => ret []
  | file :: rest =>
      do doc <- lift (processFile file);
      do _ <- emit (Processed (filePath file));
      do docs <- processAll rest;
      ret (doc :: docs)
  end.

(** Modelled from the spec: the build of the host (contentlayer), which
    is not part of the configuration.  It processes every document, a
    failure aborting the build, and then invokes the completion hook with
    access to the whole collection. *)
Definition build (files : list File) : Eff (list Doc) :=
  do docs <- processAll files;
  do _ <- emit HookInvoked;
  do _ <- onSuccess (ret {| allDocuments := docs |});
  ret docs.

End Build.

(** ** lib/metadata.ts *)

Module Metadata.

(** [process.env.NAME]: the variable's string, [undefined] when unset. *)
Definition processEnv (env : gmap string string) (name : string) : Js.Value :=
  match env !! name with
  | Some s => Js.Str s
  | None => Js.Undefined
  end.

(** The first operand of the chain: the template literal
    [`https://${process.env.VERCEL_URL}`]. *)
Definition vercelUrl (env : gmap string string) : Js.Value :=
  Js.Str ("https://" +:+ Js.toString (processEnv env "VERCEL_URL")).

(** The last operand:
    [`http://localhost:${process.env.PORT || 3000}`]. *)
Definition localhostUrl (env : gmap string string) : Js.Value :=
  Js.Str ("http://localhost:" +:+
          Js.toString (Js.or (processEnv env "PORT") (Js.Num 3000))).

Definition BASE_URL (env : gmap string string) : Js.Value :=
  Js.or (Js.or (vercelUrl env) (processEnv env "NEXT_PUBLIC_BASE_URL"))
        (localhostUrl env).

End Metadata.

(** * Properties *)

(** ** The line visitors *)

Section Visitors.

Implicit Types (tag : string) (props : gmap string Js.Value)
  (kids : list Node) (node : Node) (l : list string).

Lemma onVisitLine_element tag props kids :
  onVisitLine (Element tag props kids) =
    Ok (Element tag (<["className" := Js.Arr ["line"]]> props)
          (match kids with [] => [Text " "] | _ :: _ => kids end)).
Proof. by destruct kids. Qed.

Lemma className_insert tag props kids (v : Js.Value) :
  className (Element tag (<["className" := v]> props) kids) = v.
Proof. unfold className, Js.get. by rewrite lookup_insert_eq. Qed.

Lemma classList_insert tag props kids l :
  classList (Element tag (<["className" := Js.Arr l]> props) kids) = l.
Proof. unfold classList. by rewrite className_insert. Qed.

(** On an element whose [className] is a non-empty array the highlighted
    visitor pushes onto that array. *)
Lemma onVisitHighlightedLine_push tag props kids l :
  Js.get props "className" = Js.Arr l → l ≠ [] →
  onVisitHighlightedLine (Element tag props kids) =
    Ok (Element tag
          (<["className" := Js.Arr (l ++ ["line--highlighted"])%list]> props)
          kids).
Proof.
  intros Hget Hne. simpl. rewrite Hget.
  destruct l as [|c l']; [done|]. reflexivity.
Qed.

(** Both visitors in a row: apart from [className] the properties stay
    as they were, and the second insertion replaces the first. *)
Lemma onVisitLine_then_highlighted tag props kids :
  onVisitLine (Element tag props kids) ≫= onVisitHighlightedLine =
    Ok (Element tag
          (<["className" := Js.Arr ["line"; "line--highlighted"]]> props)
          (match kids with [] => [Text " "] | _ :: _ => kids end)).
Proof.
  rewrite onVisitLine_element. unfold mbind, Result_bind.
  rewrite (onVisitHighlightedLine_push _ _ _ ["line"]);
    [|by apply (className_insert tag _ kids)|done].
  by rewrite insert_insert_eq.
Qed.

Lemma visitCodeLine_plain tag props kids :
  visitCodeLine prettyCodeOptions false (Element tag props kids) =
    onVisitLine (Element tag props kids).
Proof.
  unfold visitCodeLine, prettyCodeOptions, visitLine.
  by destruct (onVisitLine _).
Qed.

Lemma visitCodeLine_highlighted tag props kids :
  visitCodeLine prettyCodeOptions true (Element tag props kids) =
    onVisitLine (Element tag props kids) ≫= onVisitHighlightedLine.
Proof. reflexivity. Qed.

(** Run alone, the highlighted visitor does reach its other branches: an
    element without [className] takes the fallback, and a string
    [className] makes [push] throw. *)
Example fallback_without_line_visitor :
  onVisitHighlightedLine (Element "span" ∅ []) =
    Ok (Element "span" {["className" := Js.Arr ["line--highlighted"]]} []).
Proof. reflexivity. Qed.

Example push_on_string_throws :
  isOk (onVisitHighlightedLine
          (Element "span" {["className" := Js.Str "line"]} [])) = false.
Proof. reflexivity. Qed.

(** What the highlighting step makes of a line element, in closed form. *)
Lemma visitCodeLine_element (highlighted : bool) tag props kids :
  visitCodeLine prettyCodeOptions highlighted (Element tag props kids) =
    Ok (Element tag
          (<["className" :=
               Js.Arr (if highlighted then ["line"; "line--highlighted"]
                       else ["line"])]> props)
          (match kids with [] => [Text " "] | _ :: _ => kids end)).
Proof.
  destruct highlighted.
  - rewrite visitCodeLine_highlighted. apply onVisitLine_then_highlighted.
  - rewrite visitCodeLine_plain. apply onVisitLine_element.
Qed.

(** A whole block: as many lines come out as went in, each with a child
    and the class "line". *)
Lemma visitCodeBlock_elements (lines : list (bool * Node)) :
  Forall (λ entry, isElement entry.2 = true) lines →
  ∃ rendered,
    visitCodeBlock prettyCodeOptions lines = Ok rendered
    ∧ length rendered = length lines
    ∧ Forall (λ line, children line ≠ [] ∧ "line" ∈ classList line) rendered.
Proof.
  induction 1 as [|[highlighted node] lines Hnode _ (rendered & Hrun & Hlen & Hall)].
  - exists []. by repeat split.
  - destruct node as [|tag props kids]; [done|].
    eexists. simpl. rewrite visitCodeLine_element, Hrun. simpl.
    split; [reflexivity|]. split; [simpl; by rewrite Hlen|].
    constructor; [|done]. rewrite classList_insert.
    split; [by destruct kids|]. destruct highlighted; apply list_elem_of_here.
Qed.

(** C1: after the highlighting step a line element, highlighted or not,
    has at least one child and carries the class "line"; a line without
    children has exactly one child, the text node " ", and so renders to
    a single space, while the children of any other line are kept. *)
Theorem line_rendered_nonempty_with_marker
    (highlighted : bool) tag props kids :
  ∃ line,
    visitCodeLine prettyCodeOptions highlighted (Element tag props kids) = Ok line
    ∧ children line ≠ []
    ∧ "line" ∈ classList line
    ∧ match kids with
      | [] => children line = [Text " "] ∧ textContent line = " "
      | _ :: _ => children line = kids
      end.
Proof.
  rewrite visitCodeLine_element. eexists. split; [reflexivity|].
  rewrite classList_insert. split; [by destruct kids|].
  split; [destruct highlighted; apply list_elem_of_here|]. by destruct kids.
Qed.

(** C2: for a line element, the class list after the line visitor
    followed by the highlighted-line visitor contains every class of the
    list the line visitor alone produces, and is that list with
    "line--highlighted" appended at the end. *)
Theorem highlighted_classes_extend_plain tag props kids :
  ∃ plain emphasized,
    onVisitLine (Element tag props kids) = Ok plain
    ∧ onVisitLine (Element tag props kids) ≫= onVisitHighlightedLine
        = Ok emphasized
    ∧ classList plain ⊆ classList emphasized
    ∧ classList emphasized = (classList plain ++ ["line--highlighted"])%list.
Proof.
  rewrite onVisitLine_then_highlighted, onVisitLine_element.
  do 2 eexists. do 2 (split; [reflexivity|]).
  rewrite !classList_insert. split; [|done].
  intros c Hc. apply list_elem_of_singleton in Hc as ->.
  apply list_elem_of_here.
Qed.

(** C9: the line visitor sets the class list of a line element to
    exactly ["line"]; on its result the test of the highlighted-line
    visitor holds, so the push branch is taken and never the fallback,
    and the class list becomes exactly ["line"; "line--highlighted"]. *)
Theorem highlighted_fallback_unreachable tag props kids :
  ∃ line highlightedLine,
    onVisitLine (Element tag props kids) = Ok line
    ∧ className line = Js.Arr ["line"]
    ∧ hasClasses (className line) = true
    ∧ branchOf line = PushBranch
    ∧ onVisitHighlightedLine line = Ok highlightedLine
    ∧ className highlightedLine = Js.Arr ["line"; "line--highlighted"].
Proof.
  pose proof (onVisitLine_then_highlighted tag props kids) as Hboth.
  rewrite onVisitLine_element in Hboth. rewrite onVisitLine_element.
  do 2 eexists. split; [reflexivity|].
  unfold branchOf. rewrite className_insert.
  do 3 (split; [reflexivity|]).
  split; [exact Hboth|]. apply className_insert.
Qed.

End Visitors.

(** The scenario of a fenced block of three lines, the second empty and
    the third highlighted. *)
Example three_line_block :
  let token := Element "span" {["style" := Js.Str "color:#E1E4E8"]} [Text "x"] in
  let line kids := Element "span" {["data-line" := Js.Str ""]} kids in
  visitCodeBlock prettyCodeOptions
    [(false, line [token]); (false, line []); (true, line [token])]
  = Ok [Element "span"
          {["className" := Js.Arr ["line"]; "data-line" := Js.Str ""]} [token];
        Element "span"
          {["className" := Js.Arr ["line"]; "data-line" := Js.Str ""]} [Text " "];
        Element "span"
          {["className" := Js.Arr ["line"; "line--highlighted"];
            "data-line" := Js.Str ""]} [token]].
Proof. vm_compute. reflexivity. Qed.

(** ** The transform chain *)

Section TransformChainFacts.

Context {Tree : Type} (apply : Plugin → Tree → Result Tree).

Lemma runPlugins_app (first second : list Plugin) (tree : Tree) :
  runPlugins Tree apply (first ++ second) tree =
    runPlugins Tree apply first tree ≫= runPlugins Tree apply second.
Proof.
  revert tree. induction first as [|step first IH]; intros tree; [done|].
  simpl. destruct (apply step tree) as [tree'|msg]; simpl; [apply IH|done].
Qed.

(** A step that throws ends the run with its error, whatever follows. *)
Lemma runPlugins_throw (step : Plugin) (rest : list Plugin) (tree : Tree) msg :
  apply step tree = Throw msg →
  runPlugins Tree apply (step :: rest) tree = Throw msg.
Proof. intros Hthrow. simpl. by rewrite Hthrow. Qed.

Lemma runPlugins_step (step : Plugin) (rest : list Plugin) (tree tree' : Tree) :
  apply step tree = Ok tree' →
  runPlugins Tree apply (step :: rest) tree = runPlugins Tree apply rest tree'.
Proof. intros Hok. simpl. by rewrite Hok. Qed.

End TransformChainFacts.

(** C3: whatever the plugins do to a tree, the chain of the configuration
    is the six steps GFM, math recognition, math rendering, heading
    slugs, heading self-links, code highlighting, in this order, and
    running it on a document body feeds each step the tree the previous
    step returned; the list does not depend on the document. *)
Theorem transform_chain_order
    (Tree : Type) (apply : Plugin → Tree → Result Tree) (tree : Tree) :
  pluginChain mdx =
    [remarkGfm; remarkMath; rehypeKatex; rehypeSlug;
     rehypeAutolinkHeadings autolinkOptions;
     rehypePrettyCode prettyCodeOptions]
  ∧ transformBody Tree apply tree =
      (extended ← apply remarkGfm tree;
       recognised ← apply remarkMath extended;
       rendered ← apply rehypeKatex recognised;
       slugged ← apply rehypeSlug rendered;
       linked ← apply (rehypeAutolinkHeadings autolinkOptions) slugged;
       apply (rehypePrettyCode prettyCodeOptions) linked).
Proof.
  split; [reflexivity|].
  unfold transformBody, pluginChain, mdx. simpl.
  destruct (apply remarkGfm tree) as [extended|]; simpl; [|done].
  destruct (apply remarkMath extended) as [recognised|]; simpl; [|done].
  destruct (apply rehypeKatex recognised) as [rendered|]; simpl; [|done].
  destruct (apply rehypeSlug rendered) as [slugged|]; simpl; [|done].
  destruct (apply _ slugged) as [linked|]; simpl; [|done].
  by destruct (apply _ linked).
Qed.

(** ** The completion hook *)

Section HookFacts.

Context {File Doc : Type} (filePath : File → string)
  (processFile : File → Result Doc).

(** The hook's effect on the trace: one console line with the label and
    the number of documents. *)
Lemma onSuccess_logs_count (docs : list Doc) (trace : list Event) :
  onSuccess (ret {| allDocuments := docs |}) trace =
    Ok (tt, trace ++ [ConsoleLog [Js.Str "allDocuments";
                                  Js.Num (Z.of_nat (length docs))]])%list.
Proof. reflexivity. Qed.

(** When the data cannot be read the hook throws without logging. *)
Lemma onSuccess_data_throws (msg : string) (trace : list Event) :
  onSuccess (Doc := Doc) (lift (Throw msg)) trace = Throw msg.
Proof. reflexivity. Qed.

Lemma processAll_ok (files : list File) (trace trace' : list Event)
    (docs : list Doc) :
  processAll File Doc filePath processFile files trace = Ok (docs, trace') →
  Forall2 (λ file doc, processFile file = Ok doc) files docs
  ∧ trace' = (trace ++ map (λ file, Processed (filePath file)) files)%list.
Proof.
  revert trace trace' docs.
  induction files as [|file files IH]; intros trace trace' docs; simpl.
  - unfold ret. intros [= <- <-]. split; [constructor|].
    by rewrite app_nil_r.
  - unfold bind at 1, lift. destruct (processFile file) as [doc|msg] eqn:Hdoc;
      [|done].
    unfold bind at 1, emit. unfold bind at 1.
    destruct (processAll _ _ _ _ files _) as [[docs' trace'']|] eqn:Hrest;
      [|done].
    unfold ret. intros [= <- <-].
    destruct (IH _ _ _ Hrest) as [Hdocs ->].
    split; [by constructor|]. by rewrite <- app_assoc.
Qed.

(** One failing file makes the whole run of [processAll] fail. *)
Lemma processAll_throw (before after : list File) (file : File)
    (trace : list Event) msg :
  Forall (λ f, isOk (processFile f) = true) before →
  processFile file = Throw msg →
  processAll File Doc filePath processFile (before ++ file :: after) trace
    = Throw msg.
Proof.
  intros Hbefore Hfile. revert trace.
  induction Hbefore as [|f before Hf _ IH]; intros trace; simpl.
  - unfold bind, lift. by rewrite Hfile.
  - unfold bind at 1, lift. destruct (processFile f); [|done].
    unfold bind at 1, emit. unfold bind at 1. by rewrite IH.
Qed.

End HookFacts.

(** C5: in a build that completes, the trace grows by one entry per
    processed file, then a single invocation of the hook, then the one
    thing the hook does: a console line with the label and the length of
    the document collection, which holds one document per file. *)
Theorem build_invokes_hook_once
    (File Doc : Type) (filePath : File → string)
    (processFile : File → Result Doc)
    (files : list File) (trace trace' : list Event) (docs : list Doc) :
  build File Doc filePath processFile files trace = Ok (docs, trace') →
  Forall2 (λ file doc, processFile file = Ok doc) files docs
  ∧ trace' =
      (trace ++ map (λ file, Processed (filePath file)) files
         ++ [HookInvoked;
             ConsoleLog [Js.Str "allDocuments";
                         Js.Num (Z.of_nat (length docs))]])%list.
Proof.
  unfold build. unfold bind at 1.
  destruct (processAll _ _ _ _ files trace) as [[docs' mid]|] eqn:Hall;
    [|done].
  unfold bind at 1, emit. unfold bind at 1.
  rewrite onSuccess_logs_count. unfold ret. intros [= <- <-].
  destruct (processAll_ok _ _ _ _ _ _ Hall) as [Hdocs ->].
  split; [done|]. by rewrite <- !app_assoc.
Qed.

Lemma build_invokes_hook_once_witness :
  Forall2 (λ file doc, Ok (String.length file) = Ok doc)
    ["posts/a.mdx"; "pages/about.mdx"] [11%nat; 15%nat]
  ∧ [Processed "posts/a.mdx"; Processed "pages/about.mdx"; HookInvoked;
     ConsoleLog [Js.Str "allDocuments"; Js.Num 2]] =
    ([] ++ map (λ file, Processed (id file)) ["posts/a.mdx"; "pages/about.mdx"]
        ++ [HookInvoked;
            ConsoleLog [Js.Str "allDocuments";
                        Js.Num (Z.of_nat (length [11%nat; 15%nat]))]])%list.
Proof.
  apply (build_invokes_hook_once string nat id (λ file, Ok (String.length file))
           ["posts/a.mdx"; "pages/about.mdx"] []).
  reflexivity.
Defined.

(** A build in which a file fails never reaches the hook. *)
Lemma build_throw_skips_hook
    (File Doc : Type) (filePath : File → string)
    (processFile : File → Result Doc)
    (before after : list File) (file : File) (trace : list Event) msg :
  Forall (λ f, isOk (processFile f) = true) before →
  processFile file = Throw msg →
  build File Doc filePath processFile (before ++ file :: after) trace
    = Throw msg.
Proof.
  intros Hbefore Hfile. unfold build. unfold bind at 1.
  by rewrite (processAll_throw _ _ _ _ _ _ msg Hbefore Hfile).
Qed.

(** ** The base URL *)

Section BaseUrl.

Import Metadata.

(** The template literal starts with "https://", so it is never the
    empty string. *)
Lemma vercelUrl_truthy (env : gmap string string) :
  Js.truthy (vercelUrl env) = true.
Proof. reflexivity. Qed.

(** With a truthy first operand both [||] return it. *)
Lemma BASE_URL_first_operand (env : gmap string string) :
  BASE_URL env = vercelUrl env.
Proof. reflexivity. Qed.

Example BASE_URL_unset : BASE_URL ∅ = Js.Str "https://undefined".
Proof. reflexivity. Qed.

Example BASE_URL_ignores_public_base_url :
  BASE_URL {["NEXT_PUBLIC_BASE_URL" := "https://www.martondobos.com";
             "PORT" := "8080"]}
  = Js.Str "https://undefined".
Proof. vm_compute. reflexivity. Qed.

Example BASE_URL_on_vercel :
  BASE_URL {["VERCEL_URL" := "digital-garden.vercel.app";
             "NEXT_PUBLIC_BASE_URL" := "https://www.martondobos.com"]}
  = Js.Str "https://digital-garden.vercel.app".
Proof. vm_compute. reflexivity. Qed.

(** The last operand alone would give the local address. *)
Example localhostUrl_default : localhostUrl ∅ = Js.Str "http://localhost:3000".
Proof. vm_compute. reflexivity. Qed.

(** C10: in every environment the first operand of the [||] chain is
    truthy, so [BASE_URL] is that operand: "https://" followed by the
    value of VERCEL_URL, or by "undefined" when the variable is unset;
    neither NEXT_PUBLIC_BASE_URL nor the localhost address is used. *)
Theorem BASE_URL_is_vercel_template (env : gmap string string) :
  Js.truthy (vercelUrl env) = true
  ∧ BASE_URL env = vercelUrl env
  ∧ BASE_URL env =
      Js.Str ("https://" +:+ match env !! "VERCEL_URL" with
                             | Some url => url
                             | None => "undefined"
                             end).
Proof.
  split; [apply vercelUrl_truthy|].
  split; [apply BASE_URL_first_operand|].
  rewrite BASE_URL_first_operand. unfold vercelUrl, processEnv.
  by destruct (env !! "VERCEL_URL").
Qed.

(** Two environments that agree on VERCEL_URL give the same base URL. *)
Corollary BASE_URL_depends_on_vercel_url_only (env env' : gmap string string) :
  env !! "VERCEL_URL" = env' !! "VERCEL_URL" → BASE_URL env = BASE_URL env'.
Proof.
  intros Hsame. rewrite !BASE_URL_first_operand.
  unfold vercelUrl, processEnv. by rewrite Hsame.
Qed.

End BaseUrl.

(** ** More on the line visitors *)

Section VisitorFacts.

Implicit Types (tag key : string) (props : gmap string Js.Value)
  (kids : list Node) (node : Node) (l : list string).

(** The test of the highlighted visitor holds for non-empty arrays and
    non-empty strings, and for nothing else. *)
Lemma hasClasses_cases (v : Js.Value) :
  hasClasses v =
    match v with
    | Js.Arr (_ :: _) => true
    | Js.Str s => negb (String.eqb s "")
    | _ => false
    end.
Proof.
  unfold hasClasses. destruct v as [| |b|z|s|l]; simpl; try done.
  - by destruct b.
  - by destruct (negb _).
  - by destruct s.
  - by destruct l.
Qed.

(** A successful run of the highlighted visitor, in closed form: only
    [className] is written, and it holds the former class list followed
    by the highlight class. *)
Lemma onVisitHighlightedLine_ok_inv node node' :
  onVisitHighlightedLine node = Ok node' →
  ∃ tag props kids,
    node = Element tag props kids
    ∧ node' =
        Element tag
          (<["className" :=
               Js.Arr (classList node ++ ["line--highlighted"])%list]> props)
          kids.
Proof.
  destruct node as [|tag props kids]; [done|].
  intros Hrun. exists tag, props, kids. split; [done|].
  revert Hrun. unfold onVisitHighlightedLine, classList, className.
  rewrite hasClasses_cases.
  destruct (Js.get props "className") as [| |b|z|s|[|c l]];
    try by intros [= <-].
  by destruct (negb _); [|intros [= <-]].
Qed.

(** X1: the line visitor is idempotent: a second run on its own result
    changes nothing, and on a text node both runs throw alike. *)
Theorem onVisitLine_idempotent node :
  onVisitLine node ≫= onVisitLine = onVisitLine node.
Proof.
  destruct node as [|tag props kids]; [done|].
  rewrite onVisitLine_element. unfold mbind, Result_bind.
  rewrite onVisitLine_element, insert_insert_eq. by destruct kids.
Qed.

(** X2: the line visitor keeps the tag name of an element and every
    property other than [className]. *)
Theorem onVisitLine_keeps_other_properties tag props kids key :
  key ≠ "className" →
  ∃ props' kids',
    onVisitLine (Element tag props kids) = Ok (Element tag props' kids')
    ∧ props' !! key = props !! key.
Proof.
  intros Hkey. rewrite onVisitLine_element. do 2 eexists.
  split; [reflexivity|]. by rewrite lookup_insert_ne.
Qed.

Lemma onVisitLine_keeps_other_properties_witness :
  "data-line" ≠ "className"
  ∧ ∃ props' kids',
      onVisitLine (Element "span" {["data-line" := Js.Str ""]} [])
        = Ok (Element "span" props' kids')
      ∧ props' !! "data-line"
          = ({["data-line" := Js.Str ""]} : gmap string Js.Value) !! "data-line".
Proof.
  split; [done|].
  apply (onVisitLine_keeps_other_properties "span" _ [] "data-line"). done.
Defined.

(** X3: whenever the highlighted visitor returns, in either branch, the
    class list of the result is the class list of the node followed by
    "line--highlighted", and the children are the same. *)
Theorem onVisitHighlightedLine_appends node node' :
  onVisitHighlightedLine node = Ok node' →
  classList node' = (classList node ++ ["line--highlighted"])%list
  ∧ children node' = children node.
Proof.
  intros (tag & props & kids & -> & ->)%onVisitHighlightedLine_ok_inv.
  by rewrite classList_insert.
Qed.

Lemma onVisitHighlightedLine_appends_witness :
  classList (Element "span"
               {["className" := Js.Arr ["line"; "line--highlighted"]]}
               [Text "x"])
    = (classList (Element "span" {["className" := Js.Arr ["line"]]} [Text "x"])
         ++ ["line--highlighted"])%list
  ∧ children (Element "span"
                {["className" := Js.Arr ["line"; "line--highlighted"]]}
                [Text "x"])
    = children (Element "span" {["className" := Js.Arr ["line"]]} [Text "x"]).
Proof.
  apply (onVisitHighlightedLine_appends
           (Element "span" {["className" := Js.Arr ["line"]]} [Text "x"])).
  reflexivity.
Defined.

(** X4: whenever the highlighted visitor returns, the tag name is kept
    and so is every property other than [className]. *)
Theorem onVisitHighlightedLine_keeps_other_properties
    tag props kids node' key :
  onVisitHighlightedLine (Element tag props kids) = Ok node' →
  key ≠ "className" →
  ∃ props', node' = Element tag props' kids ∧ props' !! key = props !! key.
Proof.
  intros (tag' & props' & kids' & [= -> -> ->] & ->)%onVisitHighlightedLine_ok_inv
    Hkey.
  eexists. split; [reflexivity|]. by rewrite lookup_insert_ne.
Qed.

Lemma onVisitHighlightedLine_keeps_other_properties_witness :
  ∃ props',
    Element "span" {["className" := Js.Arr ["line--highlighted"];
                     "data-line" := Js.Str ""]} []
      = Element "span" props' []
    ∧ props' !! "data-line"
        = ({["data-line" := Js.Str ""]} : gmap string Js.Value) !! "data-line".
Proof.
  apply (onVisitHighlightedLine_keeps_other_properties
           "span" {["data-line" := Js.Str ""]} [] _ "data-line");
    [vm_compute; reflexivity|done].
Defined.

(** X5: the highlighted visitor throws in exactly two cases: on a text
    node, which has no [properties], and on an element whose [className]
    is a non-empty string, which passes the length test but has no
    [push]. *)
Theorem onVisitHighlightedLine_throws_iff node :
  isOk (onVisitHighlightedLine node) = false
  ↔ isElement node = false ∨ ∃ s, className node = Js.Str s ∧ s ≠ "".
Proof.
  destruct node as [value|tag props kids]; simpl.
  - split; [by left|done].
  - rewrite hasClasses_cases.
    destruct (Js.get props "className") as [| |b|z|s|[|c l]] eqn:Hclass;
      simpl; try (split; [done|by intros [?|(s' & ? & ?)]]).
    destruct s as [|a s]; simpl.
    + split; [done|]. by intros [?|(s' & [= <-] & ?)].
    + split; [|done]. intros _. right. by eexists.
Qed.

(** X6: the order of the two visitors matters.  When the highlighted
    visitor runs first and the line visitor second, the line visitor
    overwrites the class list and the highlight class is lost. *)
Theorem highlight_lost_when_line_visitor_runs_last node node' :
  onVisitHighlightedLine node ≫= onVisitLine = Ok node' →
  classList node' = ["line"] ∧ "line--highlighted" ∉ classList node'.
Proof.
  destruct (onVisitHighlightedLine node) as [mid|] eqn:Hmid; [|done].
  apply onVisitHighlightedLine_ok_inv in Hmid as (tag & props & kids & -> & ->).
  unfold mbind, Result_bind. rewrite onVisitLine_element. intros [= <-].
  rewrite classList_insert. split; [done|].
  intros Hin. apply list_elem_of_singleton in Hin. discriminate Hin.
Qed.

Lemma highlight_lost_when_line_visitor_runs_last_witness :
  classList (Element "span" {["className" := Js.Arr ["line"]]} [Text " "])
    = ["line"]
  ∧ "line--highlighted"
      ∉ classList (Element "span" {["className" := Js.Arr ["line"]]} [Text " "]).
Proof.
  apply (highlight_lost_when_line_visitor_runs_last (Element "span" ∅ [])).
  vm_compute. reflexivity.
Defined.

(** X7: [push] does not look for the class it adds: a second run of the
    highlighted visitor appends "line--highlighted" a second time. *)
Theorem onVisitHighlightedLine_twice_duplicates node node' :
  onVisitHighlightedLine node ≫= onVisitHighlightedLine = Ok node' →
  classList node' =
    (classList node ++ ["line--highlighted"; "line--highlighted"])%list.
Proof.
  destruct (onVisitHighlightedLine node) as [mid|] eqn:Hmid; [|done].
  unfold mbind, Result_bind. intros Hsecond.
  apply onVisitHighlightedLine_ok_inv in Hsecond as (tag & props & kids & -> & ->).
  apply onVisitHighlightedLine_ok_inv in Hmid as (tag' & props' & kids' & -> & [= -> -> ->]).
  rewrite !classList_insert. by rewrite <- app_assoc.
Qed.

Lemma onVisitHighlightedLine_twice_duplicates_witness :
  classList (Element "span"
               {["className" :=
                   Js.Arr ["line"; "line--highlighted"; "line--highlighted"]]}
               [])
    = (classList (Element "span" {["className" := Js.Arr ["line"]]} [])
         ++ ["line--highlighted"; "line--highlighted"])%list.
Proof.
  apply (onVisitHighlightedLine_twice_duplicates
           (Element "span" {["className" := Js.Arr ["line"]]} [])).
  vm_compute. reflexivity.
Defined.

(** X8: neither visitor changes the text of a line that has children:
    after the line visitor, and after both visitors, the line renders to
    the same text as before. *)
Theorem visitors_keep_line_text tag props kids :
  kids ≠ [] →
  ∃ plain emphasized,
    onVisitLine (Element tag props kids) = Ok plain
    ∧ onVisitLine (Element tag props kids) ≫= onVisitHighlightedLine
        = Ok emphasized
    ∧ textContent plain = textContent (Element tag props kids)
    ∧ textContent emphasized = textContent (Element tag props kids).
Proof.
  intros Hkids. rewrite onVisitLine_then_highlighted, onVisitLine_element.
  do 2 eexists. do 2 (split; [reflexivity|]). by destruct kids.
Qed.

Lemma visitors_keep_line_text_witness :
  [Text "const x = 1;"] ≠ []
  ∧ ∃ plain emphasized,
      onVisitLine (Element "span" ∅ [Text "const x = 1;"]) = Ok plain
      ∧ onVisitLine (Element "span" ∅ [Text "const x = 1;"])
          ≫= onVisitHighlightedLine = Ok emphasized
      ∧ textContent plain = textContent (Element "span" ∅ [Text "const x = 1;"])
      ∧ textContent emphasized
          = textContent (Element "span" ∅ [Text "const x = 1;"]).
Proof.
  split; [done|]. apply (visitors_keep_line_text "span" ∅ [Text "const x = 1;"]).
  done.
Defined.

End VisitorFacts.

(** ** The esbuild options *)

(** X9: [esbuildOptions] sets [target] to "esnext", replacing a target
    the host passed in, leaves every other option as it was, and a second
    application changes nothing. *)
Theorem esbuildOptions_sets_only_target
    (options : gmap string Js.Value) (key : string) :
  Js.get (esbuildOptions mdx options) key =
    (if decide (key = "target") then Js.Str "esnext" else Js.get options key)
  ∧ esbuildOptions mdx (esbuildOptions mdx options) = esbuildOptions mdx options.
Proof.
  simpl. split; [|apply insert_insert_eq].
  unfold Js.get. case_decide as Hkey.
  - subst key. by rewrite lookup_insert_eq.
  - by rewrite lookup_insert_ne.
Qed.

(** ** The local address *)

Section LocalAddress.

Import Metadata.

(** X10: the last operand of the [BASE_URL] chain is the local address
    with the port of the PORT variable; an unset PORT and an empty PORT
    both fall back to 3000. *)
Theorem localhostUrl_port (env : gmap string string) :
  localhostUrl env =
    Js.Str ("http://localhost:" +:+
            match env !! "PORT" with
            | Some port => if decide (port = "") then "3000" else port
            | None => "3000"
            end).
Proof.
  unfold localhostUrl, processEnv.
  destruct (env !! "PORT") as [port|]; [|by vm_compute].
  destruct port as [|a port]; [by vm_compute|].
  by rewrite decide_False.
Qed.

(** X11: [BASE_URL] is never the local address, whatever the
    environment: with no variable set at all it is still the "https://"
    template. *)
Theorem BASE_URL_never_localhost (env : gmap string string) :
  BASE_URL env ≠ localhostUrl env.
Proof.
  rewrite BASE_URL_first_operand. unfold vercelUrl, localhostUrl.
  simpl. intros Heq. discriminate Heq.
Qed.

End LocalAddress.
